(** * ezstat: named statistics over an object

    A shallow embedding of [ezstat.py]: the dispatcher [_call], the class
    [Statistics] (a dict of named definitions with the method [do]) and its
    subclass [MappingStatistics], followed by the properties of the
    specification that concern them.

    Python objects are modelled by the type [value]; the places where the
    program hands control to code it does not own (calling a callable,
    iterating a subject) are operations of a [Runtime], which thread an
    interpreter state and may raise. *)

From Stdlib Require Import List String Ascii ZArith Bool Lia PeanoNat.
From Stdlib Require Import SpecFloat DecimalString DecimalNat DecimalFacts.
Import ListNotations.
Set Warnings "-register-all".
Local Open Scope string_scope.
Local Open Scope list_scope.

(** ** Python values *)

(** The objects the program can tell apart with [isinstance] and [callable].
    [VFunc] stands for every object on which [callable] holds (functions,
    lambdas, bound methods, classes); [VObject] for every other object that is
    of none of the built-in types listed. *)
Inductive value : Type :=
| VNone
| VBool (b : bool)
| VInt (n : Z)
| VFloat (x : spec_float)
| VStr (s : string)
| VTuple (xs : list value)
| VList (xs : list value)
| VFunc (name : string)
| VObject (addr : nat).

(** The exceptions that can leave the program: those the module and the
    interpreter raise themselves, and whatever user code raises. *)
Inductive exn : Type :=
| ValueError (msg : string)
| TypeError (msg : string)
| NameError (msg : string)
| AttributeError (attr : string)
| UserError (cls msg : string).

Inductive result (A : Type) : Type :=
| Ok (a : A)
| Raise (e : exn).
Arguments Ok {A} a.
Arguments Raise {A} e.

(** ** Computations: interpreter state and exceptions *)

Definition M (W A : Type) : Type := W -> result A * W.

Definition ret {W A} (a : A) : M W A := fun w => (Ok a, w).

Definition raise {W A} (e : exn) : M W A := fun w => (Raise e, w).

Definition bind {W A B} (m : M W A) (f : A -> M W B) : M W B :=
  fun w =>
    match m w with
    | (Ok a, w') => f a w'
    | (Raise e, w') => (Raise e, w')
    end.

Notation "x <- m ;; k" := (bind m (fun x => k))
  (at level 61, m at next level, right associativity).

(** ** The runtime *)

(** What the interpreter supplies. Attribute lookup, truth value and
    formatting observe the state; a call and an iteration may change it and
    may raise. [globals] is the global namespace of the module in which the
    program's functions look up their free names. *)
Class Runtime (W : Type) : Type := {
  getattr_ : W -> value -> string -> option value;
  call_ : value -> list value -> M W value;
  iter_ : value -> M W (list value);
  object_truth : W -> value -> bool;
  py_format : value -> string;
  globals : string -> option value
}.

(** The global namespace of [ezstat.py] as it is written: the module has no
    import statement and no assignment at top level, so it binds its function
    and its two classes and nothing else (and no built-in is called [k], [np]
    or [pd]). *)
Definition module_globals : string -> option value :=
  fun name =>
    if String.eqb name "_call" then Some (VFunc "_call")
    else if String.eqb name "Statistics" then Some (VFunc "Statistics")
    else if String.eqb name "MappingStatistics" then Some (VFunc "MappingStatistics")
    else None.

(** ** Built-in predicates *)

Definition callable (v : value) : bool :=
  match v with
  | VFunc _ => true
  | _ => false
  end.

(** [isinstance(s, (int, float, tuple))]; [bool] is a subclass of [int]. *)
Definition is_int_float_tuple (v : value) : bool :=
  match v with
  | VBool _ | VInt _ | VFloat _ | VTuple _ => true
  | _ => false
  end.

(** The truth value tested by [if]. *)
Definition truth {W} `{Runtime W} (w : W) (v : value) : bool :=
  match v with
  | VNone => false
  | VBool b => b
  | VInt n => negb (Z.eqb n 0)
  | VFloat x => match x with S754_zero _ => false | _ => true end
  | VStr s => negb (String.eqb s "")
  | VTuple xs | VList xs => match xs with [] => false | _ => true end
  | VFunc _ | VObject _ => object_truth w v
  end.

(** [for k in obj]: the elements in iteration order. *)
Definition chars (s : string) : list value :=
  map (fun c => VStr (String c EmptyString)) (list_ascii_of_string s).

Definition iterate {W} `{Runtime W} (obj : value) : M W (list value) :=
  match obj with
  | VTuple xs | VList xs => ret xs
  | VStr s => ret (chars s)
  | VNone => raise (TypeError "'NoneType' object is not iterable")
  | VBool _ => raise (TypeError "'bool' object is not iterable")
  | VInt _ => raise (TypeError "'int' object is not iterable")
  | VFloat _ => raise (TypeError "'float' object is not iterable")
  | VFunc _ | VObject _ => iter_ obj
  end.

(** ** The result dict *)

(** A Python dict with text keys: an association list in insertion order;
    assigning to a key that is present replaces its value in place. *)
Definition dict : Type := list (string * value).

Fixpoint dict_get (d : dict) (k : string) : option value :=
  match d with
  | [] => None
  | (k', v) :: d' => if String.eqb k' k then Some v else dict_get d' k
  end.

Fixpoint dict_set (d : dict) (k : string) (v : value) : dict :=
  match d with
  | [] => [(k, v)]
  | (k', v') :: d' =>
      if String.eqb k' k then (k', v) :: d' else (k', v') :: dict_set d' k v
  end.

(** ** The dispatcher *)

(** [str(i)] for the index of [enumerate]. *)
Definition str_of_nat (i : nat) : string :=
  NilZero.string_of_uint (Nat.to_uint i).

(** The f-string [f'{k}-{i}'] for a text [k]. *)
Definition split_name (k : string) (i : nat) : string :=
  (k ++ "-" ++ str_of_nat i)%string.

(** The messages of the exceptions. *)
Definition no_attribute_msg (name : string) : string :=
  ("the object has no attribute '" ++ name ++ "'")%string.

Definition not_permissible_msg (k : string) : string :=
  ("The type of the value corresponding to key `" ++ k
     ++ "` is not permissible!")%string.

Definition not_defined_msg (name : string) : string :=
  ("name '" ++ name ++ "' is not defined")%string.

Section Dispatcher.
Context {W : Type} `{Runtime W}.

(** [_call(s, obj)]. In the last branch the message of the [TypeError] is an
    f-string over the name [k], which is no parameter and no local of the
    function: it is looked up in the globals, before the exception is
    built. *)
Definition _call (s obj : value) : M W value :=
  match s with
  | VStr name =>
      fun w =>
        match getattr_ w obj name with
        | None =>
            (Raise (ValueError (no_attribute_msg name)), w)
        | Some f => if callable f then call_ f [] w else (Ok f, w)
        end
  | _ =>
      if callable s then call_ s [obj]
      else if is_int_float_tuple s then ret s
      else
        match globals "k" with
        | None => raise (NameError (not_defined_msg "k"))
        | Some kv =>
            raise (TypeError (not_permissible_msg (py_format kv)))
        end
  end.
End Dispatcher.

(** ** Statistics *)

Module Statistics.

(** [for i, ri in enumerate(r): res[f'{k}-{i}'] = ri], from index [i] on. *)
Fixpoint store_split (res : dict) (k : string) (i : nat) (rs : list value) : dict :=
  match rs with
  | [] => res
  | ri :: rs' => store_split (dict_set res (split_name k i) ri) k (S i) rs'
  end.

(** The body of the loop after [r] is computed. *)
Definition store (res : dict) (k : string) (r : value) (split : bool) : dict :=
  match split, r with
  | true, VTuple rs => store_split res k 0 rs
  | _, _ => dict_set res k r
  end.

(** The names under which [store] writes. *)
Definition names (k : string) (r : value) (split : bool) : list string :=
  match split, r with
  | true, VTuple rs => map (split_name k) (seq 0 (List.length rs))
  | _, _ => [k]
  end.

Section Do.
Context {W : Type} `{Runtime W}.

(** [for k, s in self.items(): ...] with the dict [res] built so far. *)
Fixpoint do_loop (items : list (string * value)) (obj : value) (split : bool)
         (res : dict) : M W dict :=
  match items with
  | [] => ret res
  | (k, s) :: rest =>
      r <- _call s obj ;;
      do_loop rest obj split (store res k r split)
  end.

(** [Statistics.do(self, obj, split=False)]; [self] is the dict of
    definitions, given by its items in iteration order. *)
Definition do (self : list (string * value)) (obj : value) (split : bool)
  : M W dict :=
  do_loop self obj split [].

(** [Statistics.__call__]. *)
Definition __call__ (self : list (string * value)) (obj : value) (split : bool)
  : M W dict :=
  do self obj split.

(** The names a run of the loop writes, in order. *)
Fixpoint written (items : list (string * value)) (obj : value) (split : bool)
         (w : W) : list string :=
  match items with
  | [] => []
  | (k, s) :: rest =>
      match _call s obj w with
      | (Ok r, w') => names k r split ++ written rest obj split w'
      | (Raise _, _) => []
      end
  end.
End Do.

End Statistics.

(** ** MappingStatistics *)

Module MappingStatistics.

(** An instance: the dict of definitions and the attribute [_key], which is
    [None] when the constructor is given no key. *)
Record t : Type := {
  key : value;
  items : list (string * value)
}.

Definition __init__ (key : option value) (items : list (string * value)) : t :=
  {| key := match key with Some v => v | None => VNone end; items := items |}.

Section Do.
Context {W : Type} `{Runtime W}.

(** A free name of the module's code. *)
Definition load_global (name : string) : M W value :=
  match globals name with
  | Some v => ret v
  | None => raise (NameError (not_defined_msg name))
  end.

(** [v.attr] in an expression. *)
Definition load_attr (v : value) (attr : string) : M W value :=
  fun w =>
    match getattr_ w v attr with
    | Some a => (Ok a, w)
    | None => (Raise (AttributeError attr), w)
    end.

(** [[_call(key, k) for k in elems]]. *)
Fixpoint comprehension (key : value) (elems : list value) : M W (list value) :=
  match elems with
  | [] => ret []
  | e :: rest =>
      x <- _call key e ;;
      xs <- comprehension key rest ;;
      ret (x :: xs)
  end.

(** [np.array([_call(self.key, k) for k in obj])]: the callee [np.array]
    is evaluated before its argument. *)
Definition project (key obj : value) : M W value :=
  np <- load_global "np" ;;
  array <- load_attr np "array" ;;
  elems <- iterate obj ;;
  xs <- comprehension key elems ;;
  call_ array [VList xs].

(** [MappingStatistics.do(self, obj, split=False)]. *)
Definition do (self : t) (obj : value) (split : bool) : M W dict :=
  fun w =>
    if truth w (key self) then
      (obj' <- project (key self) obj ;;
       Statistics.do (items self) obj' split) w
    else Statistics.do (items self) obj split w.
End Do.

End MappingStatistics.

(** ** A concrete runtime *)

(** A small interpreter state on which the definitions run: the table [T] of
    the module's docstring with its attribute [shape] and its method [mean],
    two rows, a handful of functions, and a counter of the calls of [tick] as
    the state. *)
Module Example.

Definition T : value := VObject 0.
Definition row1 : value := VObject 1.
Definition row2 : value := VObject 2.
Definition numpy : value := VObject 9.

Definition getattr_ex (w : nat) (v : value) (name : string) : option value :=
  match v with
  | VObject 0 =>
      if String.eqb name "shape" then Some (VTuple [VInt 100; VInt 100])
      else if String.eqb name "size" then Some (VInt 10000)
      else if String.eqb name "mean" then Some (VFunc "T.mean")
      else None
  | VObject 1 => if String.eqb name "mean" then Some (VFunc "row1.mean") else None
  | VObject 2 => if String.eqb name "mean" then Some (VFunc "row2.mean") else None
  | VObject 9 => if String.eqb name "array" then Some (VFunc "np.array") else None
  | _ => None
  end.

Definition call_ex (f : value) (args : list value) : M nat value :=
  fun w =>
    match f, args with
    | VFunc name, [] =>
        if String.eqb name "T.mean" then (Ok (VInt 50), w)
        else if String.eqb name "row1.mean" then (Ok (VInt 40), w)
        else if String.eqb name "row2.mean" then (Ok (VInt 60), w)
        else (Raise (TypeError "missing argument"), w)
    | VFunc name, [x] =>
        if String.eqb name "tick" then (Ok (VInt (Z.of_nat w)), S w)
        else if String.eqb name "boom" then
          (Raise (UserError "ZeroDivisionError" "division by zero"), w)
        else if String.eqb name "pair" then (Ok (VTuple [VInt 3; VInt 4]), w)
        else if String.eqb name "one" then (Ok (VInt 1), w)
        else if String.eqb name "np.array" then (Ok x, w)
        else if String.eqb name "len" then
          match x with
          | VList xs | VTuple xs => (Ok (VInt (Z.of_nat (List.length xs))), w)
          | _ => (Raise (TypeError "object has no len()"), w)
          end
        else (Raise (TypeError "not a function of one argument"), w)
    | _, _ => (Raise (TypeError "object is not callable"), w)
    end.

Definition iter_ex (v : value) : M nat (list value) :=
  fun w =>
    match v with
    | VObject 0 => (Ok [row1; row2], w)
    | _ => (Raise (TypeError "object is not iterable"), w)
    end.

(** The module as it is written. *)
Definition shipped : Runtime nat := {|
  getattr_ := getattr_ex;
  call_ := call_ex;
  iter_ := iter_ex;
  object_truth := fun _ _ => true;
  py_format := fun _ => "<object>";
  globals := module_globals
|}.

(** The module with [np] bound in its globals, as after [import numpy as np];
    the array built from a list is stood for by the list. *)
Definition with_numpy : Runtime nat := {|
  getattr_ := getattr_ex;
  call_ := call_ex;
  iter_ := iter_ex;
  object_truth := fun _ _ => true;
  py_format := fun _ => "<object>";
  globals := fun name => if String.eqb name "np" then Some numpy else module_globals name
|}.

End Example.

(** ** Predicates of the statements *)

Definition is_str (v : value) : bool :=
  match v with
  | VStr _ => true
  | _ => false
  end.

(** Evaluating any definition of [items] on [obj] leaves the interpreter state
    as it was. Callables are functions of the state, so one whose result
    varies from call to call (a counter, a random source) changes it. *)
Definition side_effect_free {W} `{Runtime W} (items : list (string * value))
           (obj : value) : Prop :=
  forall k s, In (k, s) items -> forall w, snd (_call s obj w) = w.

(** What the result of a split run is said to hold for an entry [k] whose
    value is the tuple [rs]. *)
Definition split_entries (k : string) (rs : list value) (res : dict) : Prop :=
  (forall i ri, nth_error rs i = Some ri -> dict_get res (split_name k i) = Some ri)
  /\ dict_get res k = None.

(** ** The method [dox] *)

Section Dox.
Context {W : Type} `{Runtime W}.

(** [Statistics.dox(self, objs)]:
    [data = map(s, objs)] and then
    [return pd.DataFrame(data=data, columns=s.keys())].
    Neither [s] nor [pd] is a parameter or a local of the method, so both are
    looked up in the globals; [map] is the built-in, called through the
    runtime, and the two keyword arguments are passed in the order they are
    written. *)
Definition dox (self : list (string * value)) (objs : value) : M W value :=
  s <- MappingStatistics.load_global "s" ;;
  data <- call_ (VFunc "map") [s; objs] ;;
  pd <- MappingStatistics.load_global "pd" ;;
  DataFrame <- MappingStatistics.load_attr pd "DataFrame" ;;
  s' <- MappingStatistics.load_global "s" ;;
  keys <- MappingStatistics.load_attr s' "keys" ;;
  columns <- call_ keys [] ;;
  call_ DataFrame [data; columns].

(** The values of the definitions [defs] on [obj], evaluated from left to
    right up to the first that raises. *)
Fixpoint evaluate_all (defs : list value) (obj : value) : M W (list value) :=
  match defs with
  | [] => ret []
  | s :: rest =>
      r <- _call s obj ;;
      rs <- evaluate_all rest obj ;;
      ret (r :: rs)
  end.

End Dox.

(** A definition of none of the kinds the dispatcher accepts. *)
Definition unsupported (s : value) : bool :=
  negb (is_str s) && negb (callable s) && negb (is_int_float_tuple s).


(** Two outcomes that differ at most in the mapping returned. *)
Definition same_effect {W} (o1 o2 : result dict * W) : Prop :=
  snd o1 = snd o2
  /\ match fst o1, fst o2 with
     | Ok _, Ok _ => True
     | Raise e1, Raise e2 => e1 = e2
     | _, _ => False
     end.

(** No character of [s] is the hyphen. *)
Fixpoint no_hyphen (s : string) : bool :=
  match s with
  | EmptyString => true
  | String c s' => negb (Ascii.eqb c "-") && no_hyphen s'
  end.

(** ** The dict *)

Lemma dict_get_set_same (d : dict) (k : string) (v : value) :
  dict_get (dict_set d k v) k = Some v.
Proof.
  induction d as [|[k' v'] d IH]; simpl.
  - now rewrite String.eqb_refl.
  - destruct (String.eqb k' k) eqn:E; simpl; rewrite E; auto.
Qed.

Lemma dict_get_set_other (d : dict) (k k' : string) (v : value) :
  k <> k' -> dict_get (dict_set d k v) k' = dict_get d k'.
Proof.
  intros Hne. induction d as [|[k0 v0] d IH]; simpl.
  - destruct (String.eqb k k') eqn:E; auto.
    apply String.eqb_eq in E. contradiction.
  - destruct (String.eqb k0 k) eqn:E; simpl.
    + apply String.eqb_eq in E. subst k0.
      destruct (String.eqb k k') eqn:E'; auto.
      apply String.eqb_eq in E'. contradiction.
    + now rewrite IH.
Qed.

Lemma dict_set_fresh (d : dict) (k : string) (v : value) :
  dict_get d k = None -> dict_set d k v = d ++ [(k, v)].
Proof.
  induction d as [|[k0 v0] d IH]; simpl; auto.
  destruct (String.eqb k0 k); [discriminate|].
  intros Hn. now rewrite IH.
Qed.

Lemma dict_get_app_fresh (d d' : dict) (k : string) :
  dict_get d k = None -> dict_get (d ++ d') k = dict_get d' k.
Proof.
  induction d as [|[k0 v0] d IH]; simpl; auto.
  destruct (String.eqb k0 k); [discriminate|auto].
Qed.

(** ** The names of a split tuple *)

Lemma to_uint_nonnil (n : nat) : Nat.to_uint n <> Decimal.Nil.
Proof.
  rewrite <- (Unsigned.of_to n) at 1. rewrite Unsigned.to_of.
  apply unorm_nonnil.
Qed.

Lemma str_of_nat_inj (i j : nat) : str_of_nat i = str_of_nat j -> i = j.
Proof.
  unfold str_of_nat. intros E.
  apply Unsigned.to_uint_inj.
  assert (Hi := NilZero.usu (Nat.to_uint i) (to_uint_nonnil i)).
  assert (Hj := NilZero.usu (Nat.to_uint j) (to_uint_nonnil j)).
  rewrite E in Hi. rewrite Hi in Hj. now injection Hj.
Qed.

Lemma append_cancel (p a b : string) : (p ++ a = p ++ b)%string -> a = b.
Proof.
  induction p as [|c p IH]; simpl; auto.
  intros E. injection E. auto.
Qed.

Lemma split_name_inj (k : string) (i j : nat) :
  split_name k i = split_name k j -> i = j.
Proof.
  unfold split_name. intros E.
  apply append_cancel in E. apply append_cancel in E.
  now apply str_of_nat_inj.
Qed.

Lemma in_names_split (k : string) (rs : list value) (n : string) :
  In n (Statistics.names k (VTuple rs) true) <->
  exists j, j < List.length rs /\ n = split_name k j.
Proof.
  simpl. rewrite in_map_iff. split.
  - intros [j [E Hj]]. apply in_seq in Hj. exists j. split; [lia|now symmetry].
  - intros [j [Hj E]]. exists j. split; [now symmetry|apply in_seq; lia].
Qed.

Lemma store_split_other (k n : string) (rs : list value) :
  forall (res : dict) (i : nat),
    (forall j, j < List.length rs -> split_name k (i + j) <> n) ->
    dict_get (Statistics.store_split res k i rs) n = dict_get res n.
Proof.
  induction rs as [|r rs IH]; intros res i Hn; simpl; auto.
  rewrite IH.
  - apply dict_get_set_other. specialize (Hn 0). rewrite Nat.add_0_r in Hn.
    apply Hn. simpl. lia.
  - intros j Hj. replace (S i + j) with (i + S j) by lia.
    apply Hn. simpl. lia.
Qed.

Lemma store_split_get (k : string) (rs : list value) :
  forall (res : dict) (i j : nat) (rj : value),
    nth_error rs j = Some rj ->
    dict_get (Statistics.store_split res k i rs) (split_name k (i + j)) = Some rj.
Proof.
  induction rs as [|r rs IH]; intros res i j rj Hj.
  - destruct j; discriminate.
  - destruct j as [|j]; simpl in *.
    + injection Hj as ->. rewrite Nat.add_0_r.
      rewrite store_split_other.
      * apply dict_get_set_same.
      * intros j _ E. apply split_name_inj in E. lia.
    + replace (i + S j) with (S i + j) by lia. now apply IH.
Qed.

Lemma store_split_fresh (k : string) (rs : list value) :
  forall (res : dict) (i : nat),
    (forall j, j < List.length rs -> dict_get res (split_name k (i + j)) = None) ->
    Statistics.store_split res k i rs
    = res ++ combine (map (split_name k) (seq i (List.length rs))) rs.
Proof.
  induction rs as [|r rs IH]; intros res i Hf; simpl.
  - now rewrite List.app_nil_r.
  - assert (H0 : dict_get res (split_name k i) = None).
    { specialize (Hf 0). rewrite Nat.add_0_r in Hf. apply Hf. simpl. lia. }
    rewrite (dict_set_fresh _ _ _ H0). rewrite IH.
    + now rewrite <- List.app_assoc.
    + intros j Hj. rewrite dict_get_app_fresh.
      * unfold dict_get.
        destruct (String.eqb (split_name k i) (split_name k (S i + j))) eqn:E; auto.
        apply String.eqb_eq, split_name_inj in E. lia.
      * replace (S i + j) with (i + S j) by lia. apply Hf. simpl. lia.
Qed.

Lemma store_other (res : dict) (k n : string) (r : value) (split : bool) :
  ~ In n (Statistics.names k r split) ->
  dict_get (Statistics.store res k r split) n = dict_get res n.
Proof.
  intros Hn.
  assert (Hplain : Statistics.names k r split = [k] ->
                   dict_get (dict_set res k r) n = dict_get res n).
  { intros E. rewrite E in Hn. apply dict_get_set_other.
    intros ->. apply Hn. now left. }
  destruct split; [|now apply Hplain].
  destruct r; try (now apply Hplain).
  simpl. apply store_split_other. intros j Hj E. apply Hn.
  apply in_names_split. exists j. split; [exact Hj|now symmetry].
Qed.

(** ** The loop of [do] *)

Section Loop.
Context {W : Type} `{Runtime W}.

Lemma do_loop_app (pre post : list (string * value)) (obj : value) (split : bool) :
  forall (res : dict) (w : W),
    Statistics.do_loop (pre ++ post) obj split res w
    = (res1 <- Statistics.do_loop pre obj split res ;;
       Statistics.do_loop post obj split res1) w.
Proof.
  induction pre as [|[k s] pre IH]; intros res w; simpl.
  - reflexivity.
  - unfold bind. destruct (_call s obj w) as [[r|e] w1].
    + rewrite IH. reflexivity.
    + reflexivity.
Qed.

Lemma do_loop_other (items : list (string * value)) (obj : value) (split : bool)
      (n : string) :
  forall (res res' : dict) (w w' : W),
    Statistics.do_loop items obj split res w = (Ok res', w') ->
    ~ In n (Statistics.written items obj split w) ->
    dict_get res' n = dict_get res n.
Proof.
  induction items as [|[k s] items IH]; intros res res' w w' Hrun Hn; simpl in *.
  - unfold ret in Hrun. now injection Hrun as <- _.
  - unfold bind in Hrun. destruct (_call s obj w) as [[r|e] w1]; [|discriminate].
    rewrite (IH _ _ _ _ Hrun).
    + apply store_other. intros Hin. apply Hn. apply in_or_app. now left.
    + intros Hin. apply Hn. apply in_or_app. now right.
Qed.

Lemma written_no_split (items : list (string * value)) (obj : value) :
  forall (res res' : dict) (w w' : W),
    Statistics.do_loop items obj false res w = (Ok res', w') ->
    Statistics.written items obj false w = map fst items.
Proof.
  induction items as [|[k s] items IH]; intros res res' w w' Hrun; simpl in *; auto.
  unfold bind in Hrun. destruct (_call s obj w) as [[r|e] w1]; [|discriminate].
  simpl. f_equal. eapply IH. exact Hrun.
Qed.

End Loop.

(** ** The dispatcher on each kind of definition *)

(** C1: for a text definition [s] the dispatcher looks the attribute [s] up on
    the subject: it raises [ValueError] (the spec's AttributeMissing) when the
    subject has no such attribute, returns the result of calling the attribute
    with no argument when it is callable, and returns the attribute itself
    otherwise. *)
Theorem call_text_definition {W : Type} {R : Runtime W} (s : string) (x : value) (w : W) :
  (getattr_ w x s = None ->
   _call (VStr s) x w = (Raise (ValueError (no_attribute_msg s)), w))
  /\ (forall f, getattr_ w x s = Some f -> callable f = true ->
                _call (VStr s) x w = call_ f [] w)
  /\ (forall f, getattr_ w x s = Some f -> callable f = false ->
                _call (VStr s) x w = (Ok f, w)).
Proof.
  unfold _call. repeat split.
  - intros ->. reflexivity.
  - intros f -> ->. reflexivity.
  - intros f -> ->. reflexivity.
Qed.

Lemma call_text_definition_witness :
  @_call nat Example.shipped (VStr "nonexistent") Example.T 0
  = (Raise (ValueError "the object has no attribute 'nonexistent'"), 0)
  /\ @_call nat Example.shipped (VStr "mean") Example.T 0 = (Ok (VInt 50), 0)
  /\ @_call nat Example.shipped (VStr "shape") Example.T 0
     = (Ok (VTuple [VInt 100; VInt 100]), 0).
Proof.
  destruct (@call_text_definition nat Example.shipped "nonexistent" Example.T 0)
    as [Hmissing _].
  destruct (@call_text_definition nat Example.shipped "mean" Example.T 0)
    as [_ [Hcall _]].
  destruct (@call_text_definition nat Example.shipped "shape" Example.T 0)
    as [_ [_ Hattr]].
  split; [|split].
  - apply Hmissing. reflexivity.
  - rewrite (Hcall (VFunc "T.mean")); reflexivity.
  - apply Hattr; reflexivity.
Defined.

(** C2: for a callable definition [f] the dispatcher returns [f(x)], the call
    of [f] on the subject alone; so the set [{k: f}] applied to [x] returns
    the mapping whose entry [k] is the value of [f(x)]. *)
Theorem call_callable_definition {W : Type} {R : Runtime W} (f x : value) (w : W) :
  callable f = true ->
  _call f x w = call_ f [x] w
  /\ (forall k v w', call_ f [x] w = (Ok v, w') ->
        Statistics.do [(k, f)] x false w = (Ok [(k, v)], w')
        /\ dict_get [(k, v)] k = Some v).
Proof.
  intros Hc.
  assert (E : _call f x w = call_ f [x] w).
  { destruct f; try discriminate. reflexivity. }
  split; [exact E|].
  intros k v w' Hv. split.
  - unfold Statistics.do. simpl. unfold bind. rewrite E, Hv. reflexivity.
  - simpl. now rewrite String.eqb_refl.
Qed.

Lemma call_callable_definition_witness :
  @_call nat Example.shipped (VFunc "tick") Example.T 7 = (Ok (VInt 7), 8)
  /\ @Statistics.do nat Example.shipped [("n", VFunc "tick")] Example.T false 7
     = (Ok [("n", VInt 7)], 8).
Proof.
  destruct (@call_callable_definition nat Example.shipped (VFunc "tick") Example.T 7
              eq_refl) as [E Hdo].
  split.
  - rewrite E. reflexivity.
  - apply (Hdo "n" (VInt 7) 8). reflexivity.
Defined.

(** A run over [pre ++ (k, s) :: post] that returns has returned on [pre],
    evaluated [s] in the state [pre] left, and gone on over [post]. *)
Lemma do_loop_middle {W : Type} {R : Runtime W}
      (pre post : list (string * value)) (k : string) (s obj : value) (split : bool)
      (res0 res : dict) (w w3 : W) :
  Statistics.do_loop (pre ++ (k, s) :: post) obj split res0 w = (Ok res, w3) ->
  exists res1 w1 r w2,
    Statistics.do_loop pre obj split res0 w = (Ok res1, w1)
    /\ _call s obj w1 = (Ok r, w2)
    /\ Statistics.do_loop post obj split (Statistics.store res1 k r split) w2
       = (Ok res, w3).
Proof.
  rewrite do_loop_app. unfold bind at 1.
  destruct (Statistics.do_loop pre obj split res0 w) as [[res1|e] w1]; [|discriminate].
  simpl. unfold bind.
  destruct (_call s obj w1) as [[r|e] w2] eqn:Es; [|discriminate].
  intros Hpost. exists res1, w1, r, w2. auto.
Qed.

(** C8: a definition that is an [int], a [float] or a tuple is returned as it
    is, whatever the subject; so a set with the constant [c] under the key [k]
    returns a mapping whose entry [k] is [c]. *)
Theorem call_constant_definition {W : Type} {R : Runtime W} (c x : value) (w : W) :
  is_int_float_tuple c = true ->
  _call c x w = (Ok c, w)
  /\ (forall k, Statistics.do [(k, c)] x false w = (Ok [(k, c)], w))
  /\ (forall items k res w',
        NoDup (map fst items) -> In (k, c) items ->
        Statistics.do items x false w = (Ok res, w') ->
        dict_get res k = Some c).
Proof.
  intros Hc.
  assert (E : forall w0, _call c x w0 = (Ok c, w0)).
  { intros w0. destruct c; try discriminate; reflexivity. }
  split; [apply E|]. split.
  - intros k. unfold Statistics.do. simpl. unfold bind. rewrite E. reflexivity.
  - intros items k res w' Hnd Hin Hrun.
    apply in_split in Hin. destruct Hin as [pre [post ->]].
    unfold Statistics.do in Hrun.
    apply do_loop_middle in Hrun.
    destruct Hrun as [res1 [w1 [r [w2 [_ [Hs Hpost]]]]]].
    rewrite E in Hs. injection Hs as <- <-.
    rewrite (do_loop_other _ _ _ k _ _ _ _ Hpost).
    + simpl. apply dict_get_set_same.
    + rewrite (written_no_split _ _ _ _ _ _ Hpost).
      rewrite map_app in Hnd. simpl in Hnd.
      apply NoDup_remove_2 in Hnd. intros Hin. apply Hnd.
      apply in_or_app. now right.
Qed.

Lemma call_constant_definition_witness :
  @_call nat Example.shipped (VInt 3) Example.T 0 = (Ok (VInt 3), 0)
  /\ @Statistics.do nat Example.shipped [("three", VInt 3)] Example.T false 0
     = (Ok [("three", VInt 3)], 0)
  /\ dict_get [("n", VInt 0); ("three", VInt 3); ("shape", VTuple [VInt 100; VInt 100])]
              "three" = Some (VInt 3).
Proof.
  destruct (@call_constant_definition nat Example.shipped (VInt 3) Example.T 0 eq_refl)
    as [E [Hone Hany]].
  split; [exact E|]. split; [apply Hone|].
  apply (Hany [("n", VFunc "tick"); ("three", VInt 3); ("shape", VStr "shape")]
              "three" _ 1).
  - repeat constructor; simpl; intuition discriminate.
  - simpl. auto.
  - reflexivity.
Defined.

(** C7: a definition that is neither text, nor callable, nor an [int], a
    [float] or a tuple reaches the last branch of the dispatcher. The message
    of the [TypeError] built there names [k], which the function does not
    bind; in the module as it is written the lookup of [k] raises [NameError]
    and the [TypeError] is never built. *)
Theorem call_unsupported_definition {W : Type} {R : Runtime W} (s x : value) (w : W) :
  globals "k" = None ->
  is_str s = false -> callable s = false -> is_int_float_tuple s = false ->
  _call s x w = (Raise (NameError "name 'k' is not defined"), w)
  /\ forall msg, _call s x w <> (Raise (TypeError msg), w).
Proof.
  intros Hk Hs Hc Hi.
  assert (E : _call s x w = (Raise (NameError "name 'k' is not defined"), w)).
  { destruct s; try discriminate; unfold _call; simpl; rewrite Hk; reflexivity. }
  split; [exact E|]. intros msg. rewrite E. discriminate.
Qed.

Lemma call_unsupported_definition_witness :
  @_call nat Example.shipped VNone Example.T 0
  = (Raise (NameError "name 'k' is not defined"), 0)
  /\ @Statistics.do nat Example.shipped [("mean", VList [])] Example.T false 0
     = (Raise (NameError "name 'k' is not defined"), 0).
Proof.
  split.
  - apply (@call_unsupported_definition nat Example.shipped VNone Example.T 0);
      reflexivity.
  - destruct (@call_unsupported_definition nat Example.shipped (VList []) Example.T 0
                eq_refl eq_refl eq_refl eq_refl) as [E _].
    unfold Statistics.do, Statistics.do_loop, bind.
    rewrite E. reflexivity.
Defined.

(** ** MappingStatistics without a key *)

(** C5: with no key (the constructor's default, [None]) [MappingStatistics.do]
    is [Statistics.do] on the same items, subject and split flag. *)
Theorem do_without_key {W : Type} {R : Runtime W}
        (items : list (string * value)) (obj : value) (split : bool) (w : W) :
  MappingStatistics.do (MappingStatistics.__init__ None items) obj split w
  = Statistics.do items obj split w.
Proof.
  unfold MappingStatistics.do, MappingStatistics.__init__. simpl. reflexivity.
Qed.

(** C10: the key is tested for its truth value, not against [None]: with a
    key whose truth value is false, such as the empty text or the number 0,
    [MappingStatistics.do] does what it does with no key, [Statistics.do] on
    the subject as it is. *)
Theorem do_with_falsy_key {W : Type} {R : Runtime W}
        (k : value) (items : list (string * value)) (obj : value) (split : bool)
        (w : W) :
  k <> VNone -> truth w k = false ->
  MappingStatistics.do (MappingStatistics.__init__ (Some k) items) obj split w
  = MappingStatistics.do (MappingStatistics.__init__ None items) obj split w
  /\ MappingStatistics.do (MappingStatistics.__init__ (Some k) items) obj split w
     = Statistics.do items obj split w.
Proof.
  intros _ Hk. unfold MappingStatistics.do, MappingStatistics.__init__. simpl.
  rewrite Hk. split; reflexivity.
Qed.

Lemma do_with_falsy_key_witness :
  (@MappingStatistics.do nat Example.with_numpy
     (MappingStatistics.__init__ (Some (VStr "")) [("n", VFunc "len")])
     (VList [VInt 1; VInt 2]) false 0
   = (Ok [("n", VInt 2)], 0))
  /\ (@MappingStatistics.do nat Example.with_numpy
        (MappingStatistics.__init__ (Some (VInt 0)) [("n", VFunc "len")])
        (VList [VInt 1; VInt 2]) false 0
      = (Ok [("n", VInt 2)], 0)).
Proof.
  split.
  - destruct (@do_with_falsy_key nat Example.with_numpy (VStr "") [("n", VFunc "len")]
                (VList [VInt 1; VInt 2]) false 0) as [_ E].
    + discriminate.
    + reflexivity.
    + rewrite E. reflexivity.
  - destruct (@do_with_falsy_key nat Example.with_numpy (VInt 0) [("n", VFunc "len")]
                (VList [VInt 1; VInt 2]) false 0) as [_ E].
    + discriminate.
    + reflexivity.
    + rewrite E. reflexivity.
Defined.

(** ** MappingStatistics with a key *)

Section Projection.
Context {W : Type} `{Runtime W}.


(** With a key that returns [f e] on every element [e] and changes nothing,
    the comprehension is [map f] over the elements, in their order. *)
Lemma comprehension_map (key : value) (f : value -> value) (elems : list value) :
  (forall e w, In e elems -> _call key e w = (Ok (f e), w)) ->
  forall w, MappingStatistics.comprehension key elems w = (Ok (map f elems), w).
Proof.
  induction elems as [|e elems IH]; intros Hkey w; simpl.
  - reflexivity.
  - unfold bind. rewrite Hkey by now left.
    rewrite IH by (intros; apply Hkey; now right). reflexivity.
Qed.

(** Where the module's globals bind [np] to an object whose attribute [array]
    is [arr], the method runs [Statistics.do] on [arr] applied to the list the
    comprehension built. *)
Lemma do_with_np_bound (self : MappingStatistics.t) (obj : value) (split : bool)
      (npv arr a : value) (elems xs : list value) (w w1 w2 w3 : W) :
  globals "np" = Some npv ->
  getattr_ w npv "array" = Some arr ->
  truth w (MappingStatistics.key self) = true ->
  iterate obj w = (Ok elems, w1) ->
  MappingStatistics.comprehension (MappingStatistics.key self) elems w1 = (Ok xs, w2) ->
  call_ arr [VList xs] w2 = (Ok a, w3) ->
  MappingStatistics.do self obj split w
  = Statistics.do (MappingStatistics.items self) a split w3.
Proof.
  intros Hnp Harr Ht Hit Hc Ha.
  unfold MappingStatistics.do. rewrite Ht.
  unfold MappingStatistics.project, MappingStatistics.load_global,
    MappingStatistics.load_attr, bind.
  rewrite Hnp. unfold ret at 1. rewrite Harr, Hit, Hc, Ha. reflexivity.
Qed.

End Projection.

(** C4: with a key whose truth value is true the method starts the projection
    with the call [np.array(...)]. The module has no import and binds no name
    [np]: the lookup of the callee raises [NameError] before the subject is
    iterated, and no definition is evaluated. *)
Theorem do_with_key_np_unbound {W : Type} {R : Runtime W}
        (self : MappingStatistics.t) (obj : value) (split : bool) (w : W) :
  globals "np" = None ->
  truth w (MappingStatistics.key self) = true ->
  MappingStatistics.do self obj split w
  = (Raise (NameError "name 'np' is not defined"), w).
Proof.
  intros Hnp Ht. unfold MappingStatistics.do. rewrite Ht.
  unfold MappingStatistics.project, MappingStatistics.load_global, bind.
  rewrite Hnp. reflexivity.
Qed.

Lemma do_with_key_np_unbound_witness :
  @MappingStatistics.do nat Example.shipped
    (MappingStatistics.__init__ (Some (VStr "mean"))
       [("n", VFunc "len"); ("one", VFunc "one")])
    Example.T false 0
  = (Raise (NameError "name 'np' is not defined"), 0).
Proof.
  apply (@do_with_key_np_unbound nat Example.shipped); reflexivity.
Defined.

(** The same call where [np] is bound: the rows' means, in order, then the
    statistics of that list. *)
Example do_with_key_np_bound :
  @MappingStatistics.do nat Example.with_numpy
    (MappingStatistics.__init__ (Some (VStr "mean"))
       [("n", VFunc "len"); ("one", VFunc "one")])
    Example.T false 0
  = @Statistics.do nat Example.with_numpy
      [("n", VFunc "len"); ("one", VFunc "one")] (VList [VInt 40; VInt 60]) false 0.
Proof.
  rewrite (do_with_np_bound (H := Example.with_numpy)
             (MappingStatistics.__init__ (Some (VStr "mean"))
                [("n", VFunc "len"); ("one", VFunc "one")])
             Example.T false Example.numpy (VFunc "np.array")
             (VList [VInt 40; VInt 60]) [Example.row1; Example.row2]
             [VInt 40; VInt 60] 0 0 0 0); reflexivity.
Qed.

(** ** Failures *)

Lemma do_loop_raise {W : Type} {R : Runtime W}
      (items : list (string * value)) (obj : value) (split : bool) (e : exn) (w' : W) :
  forall (res : dict) (w : W),
    Statistics.do_loop items obj split res w = (Raise e, w') ->
    exists pre k s post res1 w1,
      items = pre ++ (k, s) :: post
      /\ Statistics.do_loop pre obj split res w = (Ok res1, w1)
      /\ _call s obj w1 = (Raise e, w').
Proof.
  induction items as [|[k s] items IH]; intros res w Hrun; simpl in Hrun.
  - discriminate.
  - unfold bind in Hrun. destruct (_call s obj w) as [[r|e0] w0] eqn:Es.
    + destruct (IH _ _ Hrun) as [pre [k' [s' [post [res1 [w1 [-> [Hpre Hs]]]]]]]].
      exists ((k, s) :: pre), k', s', post, res1, w1. repeat split; auto.
      simpl. unfold bind. now rewrite Es.
    + injection Hrun as <- <-.
      exists [], k, s, items, res, w. repeat split; auto.
Qed.

(** C6: [Statistics.do] raises exactly when the dispatcher raises on one of
    the definitions, the ones before it having returned: the exception is the
    dispatcher's own, the state is the one that evaluation left (no later
    definition is evaluated), and the outcome carries no mapping. *)
Theorem do_propagates_first_failure {W : Type} {R : Runtime W}
        (items : list (string * value)) (obj : value) (split : bool)
        (e : exn) (w w' : W) :
  Statistics.do items obj split w = (Raise e, w')
  <-> exists pre k s post res1 w1,
        items = pre ++ (k, s) :: post
        /\ Statistics.do pre obj split w = (Ok res1, w1)
        /\ _call s obj w1 = (Raise e, w').
Proof.
  unfold Statistics.do. split.
  - apply do_loop_raise.
  - intros [pre [k [s [post [res1 [w1 [-> [Hpre Hs]]]]]]]].
    rewrite do_loop_app. unfold bind at 1. rewrite Hpre.
    simpl. unfold bind. rewrite Hs. reflexivity.
Qed.

Lemma do_propagates_first_failure_witness :
  @Statistics.do nat Example.shipped
    [("n", VFunc "tick"); ("bad", VFunc "boom"); ("m", VFunc "tick")]
    Example.T false 0
  = (Raise (UserError "ZeroDivisionError" "division by zero"), 1).
Proof.
  apply (proj2 (@do_propagates_first_failure nat Example.shipped
                  [("n", VFunc "tick"); ("bad", VFunc "boom"); ("m", VFunc "tick")]
                  Example.T false
                  (UserError "ZeroDivisionError" "division by zero") 0 1)).
  exists [("n", VFunc "tick")], "bad", (VFunc "boom"), [("m", VFunc "tick")],
    [("n", VInt 0)], 1.
  repeat split.
Defined.

(** ** Repeated calls *)

Lemma do_loop_state {W : Type} {R : Runtime W}
      (items : list (string * value)) (obj : value) (split : bool) :
  side_effect_free items obj ->
  forall (res : dict) (w : W), snd (Statistics.do_loop items obj split res w) = w.
Proof.
  induction items as [|[k s] items IH]; intros Hfree res w; simpl.
  - reflexivity.
  - unfold bind.
    assert (Hs := Hfree k s (or_introl eq_refl) w).
    destruct (_call s obj w) as [[r|e] w1]; simpl in Hs; subst w1.
    + apply IH. intros k' s' Hin. apply (Hfree k' s'). now right.
    + reflexivity.
Qed.

(** C9: when evaluating the definitions on the subject has no effect on the
    state, a call of [Statistics.do] leaves the state as it found it, and the
    call repeated after it returns the same outcome: the same mapping, or the
    same exception. *)
Theorem do_repeatable {W : Type} {R : Runtime W}
        (items : list (string * value)) (obj : value) :
  side_effect_free items obj ->
  forall (split : bool) (w : W) (r : result dict) (w1 : W),
    Statistics.do items obj split w = (r, w1) ->
    w1 = w /\ Statistics.do items obj split w1 = (r, w1).
Proof.
  intros Hfree split w r w1 Hrun.
  assert (Hw := do_loop_state items obj split Hfree [] w).
  unfold Statistics.do in *. rewrite Hrun in Hw. simpl in Hw. subst w1.
  split; [reflexivity|exact Hrun].
Qed.

Lemma do_repeatable_witness :
  @Statistics.do nat Example.shipped
    [("mean", VStr "mean"); ("shape", VStr "shape"); ("three", VInt 3)]
    Example.T true 5
  = (Ok [("mean", VInt 50); ("shape-0", VInt 100); ("shape-1", VInt 100);
         ("three", VInt 3)], 5).
Proof.
  refine (proj2 (@do_repeatable nat Example.shipped
                   [("mean", VStr "mean"); ("shape", VStr "shape"); ("three", VInt 3)]
                   Example.T _ true 5 _ 5 eq_refl)).
  intros k s Hin w.
  destruct Hin as [E|[E|[E|[]]]]; injection E as <- <-; reflexivity.
Defined.

(** A definition that counts its calls is not free of effects, and the second
    call returns another mapping. *)
Example do_twice_with_effects :
  @Statistics.do nat Example.shipped [("n", VFunc "tick")] Example.T false 0
  = (Ok [("n", VInt 0)], 1)
  /\ @Statistics.do nat Example.shipped [("n", VFunc "tick")] Example.T false 1
     = (Ok [("n", VInt 1)], 2).
Proof.
  split; reflexivity.
Qed.

(** ** Splitting tuples *)

Lemma string_length_append (a b : string) :
  String.length (a ++ b) = String.length a + String.length b.
Proof.
  induction a as [|c a IH]; simpl; auto.
Qed.

Lemma split_name_neq (k : string) (i : nat) : split_name k i <> k.
Proof.
  unfold split_name. intros E.
  apply (f_equal String.length) in E.
  rewrite string_length_append in E. simpl in E. lia.
Qed.

(** C3, as it is stated, fails where the names of two entries meet: in the set
    [{'a': (1, 2), 'a-0': (3, 4)}] the value of the entry ['a-0'] is a tuple,
    and the split result has an entry under the plain name ['a-0'], written
    for the first element of ['a']. *)
Lemma split_entries_counterexample :
  @_call nat Example.shipped (VTuple [VInt 3; VInt 4]) Example.T 0
  = (Ok (VTuple [VInt 3; VInt 4]), 0)
  /\ @Statistics.do nat Example.shipped
       [("a", VTuple [VInt 1; VInt 2]); ("a-0", VTuple [VInt 3; VInt 4])]
       Example.T true 0
     = (Ok [("a-0", VInt 1); ("a-1", VInt 2); ("a-0-0", VInt 3); ("a-0-1", VInt 4)], 0)
  /\ ~ split_entries "a-0" [VInt 3; VInt 4]
         [("a-0", VInt 1); ("a-1", VInt 2); ("a-0-0", VInt 3); ("a-0-1", VInt 4)].
Proof.
  split; [reflexivity|]. split; [reflexivity|].
  intros [_ Hplain]. discriminate Hplain.
Qed.

(** C3, amended: let the entry [(k, s)] of a run that returns have the tuple
    [rs] as its value. With [split] true the result maps ["k-i"] to the
    element [i] of [rs] for every index [i] whose name no later entry writes,
    it has no entry under [k] unless another entry writes that name, and the
    names are written in the order of the tuple, after the entries present
    when none of them is. With [split] false the result maps [k] to the
    tuple. *)
Theorem do_split_tuple_entry {W : Type} {R : Runtime W}
        (pre post : list (string * value)) (k : string) (s obj : value) (split : bool)
        (rs : list value) (res1 res : dict) (w w1 w2 w3 : W) :
  Statistics.do pre obj split w = (Ok res1, w1) ->
  _call s obj w1 = (Ok (VTuple rs), w2) ->
  Statistics.do (pre ++ (k, s) :: post) obj split w = (Ok res, w3) ->
  (split = true ->
     (forall i ri, nth_error rs i = Some ri ->
        ~ In (split_name k i) (Statistics.written post obj true w2) ->
        dict_get res (split_name k i) = Some ri)
     /\ (~ In k (Statistics.written pre obj true w) ->
         ~ In k (Statistics.written post obj true w2) ->
         dict_get res k = None)
     /\ ((forall i, i < List.length rs -> dict_get res1 (split_name k i) = None) ->
         Statistics.store res1 k (VTuple rs) true
         = res1 ++ combine (map (split_name k) (seq 0 (List.length rs))) rs))
  /\ (split = false ->
      NoDup (map fst (pre ++ (k, s) :: post)) ->
      dict_get res k = Some (VTuple rs)).
Proof.
  intros Hpre Hs Hrun.
  unfold Statistics.do in Hrun. apply do_loop_middle in Hrun.
  destruct Hrun as [res1' [w1' [r [w2' [Hpre' [Hs' Hpost]]]]]].
  unfold Statistics.do in Hpre. rewrite Hpre in Hpre'. injection Hpre' as <- <-.
  rewrite Hs in Hs'. injection Hs' as <- <-.
  split.
  - intros ->. repeat split.
    + intros i ri Hi Hlater.
      rewrite (do_loop_other _ _ _ _ _ _ _ _ Hpost Hlater).
      simpl. apply (store_split_get k rs res1 0 i ri Hi).
    + intros Hbefore Hlater.
      rewrite (do_loop_other _ _ _ _ _ _ _ _ Hpost Hlater).
      rewrite store_other.
      * rewrite (do_loop_other _ _ _ _ _ _ _ _ Hpre Hbefore). reflexivity.
      * intros Hin. apply in_names_split in Hin. destruct Hin as [j [_ E]].
        symmetry in E. now apply split_name_neq in E.
    + intros Hfresh. simpl. apply store_split_fresh. exact Hfresh.
  - intros -> Hnd.
    rewrite (do_loop_other _ _ _ k _ _ _ _ Hpost).
    + simpl. apply dict_get_set_same.
    + rewrite (written_no_split _ _ _ _ _ _ Hpost).
      rewrite map_app in Hnd. simpl in Hnd.
      apply NoDup_remove_2 in Hnd. intros Hin. apply Hnd.
      apply in_or_app. now right.
Qed.

Lemma do_split_tuple_entry_witness :
  (dict_get [("mean", VInt 50); ("k-0", VInt 100); ("k-1", VInt 100); ("three", VInt 3)]
            "k-1" = Some (VInt 100)
   /\ dict_get [("mean", VInt 50); ("k-0", VInt 100); ("k-1", VInt 100); ("three", VInt 3)]
               "k" = None)
  /\ dict_get [("mean", VInt 50); ("k", VTuple [VInt 100; VInt 100]); ("three", VInt 3)]
              "k" = Some (VTuple [VInt 100; VInt 100]).
Proof.
  split.
  - destruct (@do_split_tuple_entry nat Example.shipped
                [("mean", VStr "mean")] [("three", VInt 3)] "k" (VStr "shape")
                Example.T true [VInt 100; VInt 100] [("mean", VInt 50)]
                [("mean", VInt 50); ("k-0", VInt 100); ("k-1", VInt 100);
                 ("three", VInt 3)]
                0 0 0 0 eq_refl eq_refl eq_refl) as [Hsplit _].
    destruct (Hsplit eq_refl) as [Helem [Hplain _]].
    split.
    + apply (Helem 1 (VInt 100) eq_refl). simpl. intuition discriminate.
    + apply Hplain; simpl; intuition discriminate.
  - destruct (@do_split_tuple_entry nat Example.shipped
                [("mean", VStr "mean")] [("three", VInt 3)] "k" (VStr "shape")
                Example.T false [VInt 100; VInt 100] [("mean", VInt 50)]
                [("mean", VInt 50); ("k", VTuple [VInt 100; VInt 100]);
                 ("three", VInt 3)]
                0 0 0 0 eq_refl eq_refl eq_refl) as [_ Hwhole].
    apply (Hwhole eq_refl).
    repeat constructor; simpl; intuition discriminate.
Defined.

(** ** The result without splitting *)

Lemma do_loop_no_split_zips {W : Type} {R : Runtime W}
      (items : list (string * value)) (obj : value) :
  forall (res : dict) (w : W),
    NoDup (map fst items) ->
    (forall k, In k (map fst items) -> dict_get res k = None) ->
    Statistics.do_loop items obj false res w
    = (vs <- evaluate_all (map snd items) obj ;;
       ret (res ++ combine (map fst items) vs)) w.
Proof.
  induction items as [|[k s] items IH]; intros res w Hnd Hfresh; simpl.
  - unfold bind, ret. now rewrite List.app_nil_r.
  - unfold bind. destruct (_call s obj w) as [[r|e] w1]; [|reflexivity].
    inversion Hnd as [|k0 ks Hk Hnd']; subst.
    simpl. rewrite (dict_set_fresh res k r) by (apply Hfresh; now left).
    rewrite IH; auto.
    + unfold bind, ret.
      destruct (evaluate_all (map snd items) obj w1) as [[vs|e] w2]; [|reflexivity].
      now rewrite <- List.app_assoc.
    + intros k' Hk'. rewrite dict_get_app_fresh by (apply Hfresh; now right).
      simpl. destruct (String.eqb k k') eqn:E; auto.
      apply String.eqb_eq in E. subst k'. contradiction.
Qed.

(** X1: without splitting, [Statistics.do] evaluates the definitions in the order
    of the set and returns their values under their keys, in that order; it
    raises where the first evaluation raises. *)
Theorem do_no_split_zips {W : Type} {R : Runtime W}
        (items : list (string * value)) (obj : value) (w : W) :
  NoDup (map fst items) ->
  Statistics.do items obj false w
  = (vs <- evaluate_all (map snd items) obj ;;
     ret (combine (map fst items) vs)) w.
Proof.
  intros Hnd. unfold Statistics.do.
  rewrite do_loop_no_split_zips; auto.
Qed.

Lemma do_no_split_zips_witness :
  @Statistics.do nat Example.shipped
    [("n", VFunc "tick"); ("shape", VStr "shape"); ("m", VFunc "tick")]
    Example.T false 4
  = (Ok [("n", VInt 4); ("shape", VTuple [VInt 100; VInt 100]); ("m", VInt 5)], 6).
Proof.
  rewrite (@do_no_split_zips nat Example.shipped).
  - reflexivity.
  - repeat constructor; simpl; intuition discriminate.
Defined.

(** ** What the split flag changes *)

Lemma do_loop_split_no_tuple {W : Type} {R : Runtime W}
      (items : list (string * value)) (obj : value) :
  (forall k s, In (k, s) items ->
     forall w r w' rs, _call s obj w = (Ok r, w') -> r <> VTuple rs) ->
  forall (res : dict) (w : W),
    Statistics.do_loop items obj true res w = Statistics.do_loop items obj false res w.
Proof.
  induction items as [|[k s] items IH]; intros Hnt res w;
    cbn [Statistics.do_loop].
  - reflexivity.
  - unfold bind. destruct (_call s obj w) as [[r|e] w1] eqn:Es; [|reflexivity].
    assert (Hr : Statistics.store res k r true = Statistics.store res k r false).
    { destruct r; try reflexivity.
      exfalso. apply (Hnt k s (or_introl eq_refl) w (VTuple xs) w1 xs Es). reflexivity. }
    rewrite Hr. apply IH. intros k' s' Hin. apply (Hnt k' s'). now right.
Qed.

(** X3: where no definition evaluates to a tuple, the call with [split] true has
    the outcome of the call with [split] false. *)
Theorem do_split_without_tuples {W : Type} {R : Runtime W}
        (items : list (string * value)) (obj : value) :
  (forall k s, In (k, s) items ->
     forall w r w' rs, _call s obj w = (Ok r, w') -> r <> VTuple rs) ->
  forall w : W, Statistics.do items obj true w = Statistics.do items obj false w.
Proof.
  intros Hnt w. unfold Statistics.do. now apply do_loop_split_no_tuple.
Qed.

Lemma do_split_without_tuples_witness :
  @Statistics.do nat Example.shipped [("mean", VStr "mean"); ("three", VInt 3)]
    Example.T true 0
  = (Ok [("mean", VInt 50); ("three", VInt 3)], 0).
Proof.
  rewrite (@do_split_without_tuples nat Example.shipped).
  - reflexivity.
  - intros k s Hin w r w' rs.
    destruct Hin as [E|[E|[]]]; injection E as <- <-;
      intros E; injection E as <- _; discriminate.
Defined.

(** X4: an entry whose value is the empty tuple leaves no trace in a split result:
    where evaluating [s] returns [()] and changes nothing, the set with the
    entry [(k, s)] has the outcome of the set without it. *)
Theorem do_split_drops_empty_tuple {W : Type} {R : Runtime W}
        (pre post : list (string * value)) (k : string) (s obj : value) :
  (forall w, _call s obj w = (Ok (VTuple []), w)) ->
  forall w : W,
    Statistics.do (pre ++ (k, s) :: post) obj true w
    = Statistics.do (pre ++ post) obj true w.
Proof.
  intros Hs w. unfold Statistics.do. rewrite !do_loop_app. unfold bind.
  destruct (Statistics.do_loop pre obj true [] w) as [[res1|e] w1]; [|reflexivity].
  cbn [Statistics.do_loop]. unfold bind. rewrite Hs. reflexivity.
Qed.

Lemma do_split_drops_empty_tuple_witness :
  @Statistics.do nat Example.shipped
    [("mean", VStr "mean"); ("none", VTuple []); ("three", VInt 3)] Example.T true 0
  = (Ok [("mean", VInt 50); ("three", VInt 3)], 0).
Proof.
  rewrite (@do_split_drops_empty_tuple nat Example.shipped
             [("mean", VStr "mean")] [("three", VInt 3)] "none" (VTuple []) Example.T).
  - reflexivity.
  - reflexivity.
Defined.

Lemma do_loop_same_effect {W : Type} {R : Runtime W}
      (items : list (string * value)) (obj : value) (split1 split2 : bool) :
  forall (res res' : dict) (w : W),
    same_effect (Statistics.do_loop items obj split1 res w)
                (Statistics.do_loop items obj split2 res' w).
Proof.
  induction items as [|[k s] items IH]; intros res res' w; simpl.
  - split; simpl; auto.
  - unfold bind. destruct (_call s obj w) as [[r|e] w1].
    + apply IH.
    + split; reflexivity.
Qed.

(** X5: the split flag changes the mapping only: with either flag the call
    evaluates the same definitions, leaves the same state, and raises the
    same exception if it raises. *)
Theorem do_split_same_effect {W : Type} {R : Runtime W}
        (items : list (string * value)) (obj : value) (w : W) :
  same_effect (Statistics.do items obj true w) (Statistics.do items obj false w).
Proof.
  unfold Statistics.do. apply do_loop_same_effect.
Qed.

(** ** The names of the result *)

Lemma dict_get_set_some (d : dict) (k n : string) (v : value) :
  dict_get (dict_set d k v) n <> None <-> dict_get d n <> None \/ n = k.
Proof.
  destruct (String.eqb k n) eqn:E.
  - apply String.eqb_eq in E. subst n. rewrite dict_get_set_same.
    split; [now right|discriminate].
  - apply String.eqb_neq in E. rewrite dict_get_set_other by exact E.
    split; [now left|]. intros [Hd|Hn]; [exact Hd|]. now subst.
Qed.

Lemma store_split_some (k n : string) (rs : list value) :
  forall (res : dict) (i : nat),
    dict_get (Statistics.store_split res k i rs) n <> None
    <-> dict_get res n <> None
        \/ exists j, j < List.length rs /\ n = split_name k (i + j).
Proof.
  induction rs as [|r rs IH]; intros res i; simpl.
  - split; [now left|]. intros [Hd|[j [Hj _]]]; [exact Hd|lia].
  - rewrite IH. rewrite dict_get_set_some. split.
    + intros [[Hd|Hn]|[j [Hj Hn]]].
      * now left.
      * right. exists 0. split; [lia|]. now rewrite Nat.add_0_r.
      * right. exists (S j). split; [lia|].
        now replace (i + S j) with (S i + j) by lia.
    + intros [Hd|[j [Hj Hn]]].
      * left. now left.
      * destruct j as [|j].
        -- left. right. now rewrite Nat.add_0_r in Hn.
        -- right. exists j. split; [lia|].
           now replace (S i + j) with (i + S j) by lia.
Qed.

Lemma store_some (res : dict) (k n : string) (r : value) (split : bool) :
  dict_get (Statistics.store res k r split) n <> None
  <-> dict_get res n <> None \/ In n (Statistics.names k r split).
Proof.
  assert (Hplain : dict_get (dict_set res k r) n <> None
                   <-> dict_get res n <> None \/ In n [k]).
  { rewrite dict_get_set_some. simpl. intuition. }
  destruct split; [|exact Hplain].
  destruct r; try exact Hplain.
  rewrite in_names_split. unfold Statistics.store.
  rewrite store_split_some. simpl. reflexivity.
Qed.

Lemma do_loop_names {W : Type} {R : Runtime W}
      (items : list (string * value)) (obj : value) (split : bool) (n : string) :
  forall (res res' : dict) (w w' : W),
    Statistics.do_loop items obj split res w = (Ok res', w') ->
    (dict_get res' n <> None
     <-> dict_get res n <> None \/ In n (Statistics.written items obj split w)).
Proof.
  induction items as [|[k s] items IH]; intros res res' w w' Hrun;
    cbn [Statistics.do_loop Statistics.written] in *.
  - unfold ret in Hrun. injection Hrun as <- _. simpl. intuition.
  - unfold bind in Hrun. destruct (_call s obj w) as [[r|e] w1]; [|discriminate].
    rewrite (IH _ _ _ _ Hrun). rewrite store_some. rewrite in_app_iff. intuition.
Qed.

(** X2: the mapping a call returns has an entry under exactly the names the run
    wrote: for each entry of the set, its key, or, where [split] is true and
    its value is a tuple, its key followed by each index. *)
Theorem do_result_names {W : Type} {R : Runtime W}
        (items : list (string * value)) (obj : value) (split : bool)
        (res : dict) (w w' : W) (n : string) :
  Statistics.do items obj split w = (Ok res, w') ->
  (dict_get res n <> None <-> In n (Statistics.written items obj split w)).
Proof.
  intros Hrun. unfold Statistics.do in Hrun.
  rewrite (do_loop_names _ _ _ n _ _ _ _ Hrun). simpl. intuition.
Qed.

Lemma do_result_names_witness :
  dict_get [("mean", VInt 50); ("shape-0", VInt 100); ("shape-1", VInt 100)] "shape"
  = None.
Proof.
  destruct (dict_get [("mean", VInt 50); ("shape-0", VInt 100); ("shape-1", VInt 100)]
                     "shape") as [v|] eqn:E; [|reflexivity].
  exfalso.
  assert (Hin : In "shape" ["mean"; "shape-0"; "shape-1"]).
  { apply (proj1 (@do_result_names nat Example.shipped
                    [("mean", VStr "mean"); ("shape", VStr "shape")] Example.T true
                    [("mean", VInt 50); ("shape-0", VInt 100); ("shape-1", VInt 100)]
                    0 0 "shape" eq_refl)).
    rewrite E. discriminate. }
  simpl in Hin. intuition discriminate.
Defined.

(** ** Definitions the dispatcher rejects *)

Lemma call_unsupported_raises {W : Type} {R : Runtime W} (s obj : value) :
  unsupported s = true ->
  exists e, forall w : W, _call s obj w = (Raise e, w).
Proof.
  intros Hu. unfold _call.
  destruct s; try discriminate; simpl;
    destruct (globals "k"); eexists; intros w; reflexivity.
Qed.

(** X8: a set that holds a definition of no accepted kind never returns a mapping,
    whatever its other definitions, the subject and the split flag. *)
Theorem do_unsupported_never_returns {W : Type} {R : Runtime W}
        (items : list (string * value)) (k : string) (s obj : value) (split : bool)
        (w : W) :
  In (k, s) items -> unsupported s = true ->
  forall res w', Statistics.do items obj split w <> (Ok res, w').
Proof.
  intros Hin Hu res w' Hrun.
  apply in_split in Hin. destruct Hin as [pre [post ->]].
  unfold Statistics.do in Hrun. apply do_loop_middle in Hrun.
  destruct Hrun as [res1 [w1 [r [w2 [_ [Hs _]]]]]].
  destruct (call_unsupported_raises s obj Hu) as [e He].
  rewrite He in Hs. discriminate.
Qed.

Lemma do_unsupported_never_returns_witness :
  @Statistics.do nat Example.shipped
    [("mean", VStr "mean"); ("bad", VNone)] Example.T false 0
  <> (Ok [("mean", VInt 50); ("bad", VNone)], 0).
Proof.
  apply (@do_unsupported_never_returns nat Example.shipped
           [("mean", VStr "mean"); ("bad", VNone)] "bad" VNone Example.T false 0).
  - simpl. auto.
  - reflexivity.
Defined.

(** ** Sets that call nothing *)



(** ** The projection *)










(** ** The method [dox] *)

(** X13: [dox] reads the name [s], which it does not bind. In the module as it is
    written no global [s] exists: every call raises [NameError] at once,
    whatever the set and the objects, and nothing is evaluated. *)
Theorem dox_raises_NameError {W : Type} {R : Runtime W}
        (self : list (string * value)) (objs : value) (w : W) :
  globals "s" = None ->
  dox self objs w = (Raise (NameError "name 's' is not defined"), w).
Proof.
  intros Hs. unfold dox, MappingStatistics.load_global, bind.
  rewrite Hs. reflexivity.
Qed.

Lemma dox_raises_NameError_witness :
  @dox nat Example.shipped [("mean", VStr "mean")]
    (VList [Example.row1; Example.row2]) 0
  = (Raise (NameError "name 's' is not defined"), 0).
Proof.
  apply (@dox_raises_NameError nat Example.shipped). reflexivity.
Defined.

(** ** Names of different entries *)

Lemma no_hyphen_digits (d : Decimal.uint) :
  no_hyphen (NilEmpty.string_of_uint d) = true.
Proof.
  induction d; simpl; auto.
Qed.

Lemma no_hyphen_str_of_nat (i : nat) : no_hyphen (str_of_nat i) = true.
Proof.
  unfold str_of_nat, NilZero.string_of_uint.
  destruct (Nat.to_uint i) eqn:E; try (rewrite <- E; apply no_hyphen_digits).
  reflexivity.
Qed.

Lemma no_hyphen_app_hyphen (a b : string) :
  no_hyphen (a ++ String "-" b) = false.
Proof.
  induction a as [|c a IH]; simpl.
  - reflexivity.
  - rewrite IH. apply andb_false_r.
Qed.

Lemma hyphen_suffix_inj (k : string) :
  forall (k' a b : string),
    no_hyphen a = true -> no_hyphen b = true ->
    (k ++ "-" ++ a = k' ++ "-" ++ b)%string -> k = k' /\ a = b.
Proof.
  induction k as [|c k IH]; intros k' a b Ha Hb E.
  - destruct k' as [|c' k']; simpl in E.
    + injection E as E. auto.
    + injection E as Ec E. subst a.
      rewrite no_hyphen_app_hyphen in Ha. discriminate.
  - destruct k' as [|c' k']; simpl in E.
    + injection E as Ec E. subst b.
      rewrite no_hyphen_app_hyphen in Hb. discriminate.
    + injection E as Ec E. subst c'.
      destruct (IH k' a b Ha Hb E) as [-> ->]. auto.
Qed.

Lemma split_name_inj_pair (k k' : string) (i j : nat) :
  split_name k i = split_name k' j -> k = k' /\ i = j.
Proof.
  unfold split_name. intros E.
  apply hyphen_suffix_inj in E; try apply no_hyphen_str_of_nat.
  destruct E as [-> E]. split; [reflexivity|]. now apply str_of_nat_inj.
Qed.

(** X6: the name [f'{k}-{i}'] determines both the key and the index: two entries
    with different keys never write the same split name, whatever hyphens
    and digits the keys hold. *)
Theorem split_name_injective (k k' : string) (i j : nat) :
  split_name k i = split_name k' j -> k = k' /\ i = j.
Proof.
  apply split_name_inj_pair.
Qed.

Lemma split_name_injective_witness :
  split_name "a-1" 0 = "a-1-0" /\ ("a-1" = "a-1" /\ 0 = 0).
Proof.
  split; [reflexivity|].
  apply (split_name_injective "a-1" "a-1" 0 0). reflexivity.
Defined.

Lemma written_all_tuples {W : Type} {R : Runtime W}
      (items : list (string * value)) (obj : value) (n : string) :
  (forall k s, In (k, s) items ->
     forall w r w', _call s obj w = (Ok r, w') -> exists rs, r = VTuple rs) ->
  forall w : W,
    In n (Statistics.written items obj true w) ->
    exists k j, In k (map fst items) /\ n = split_name k j.
Proof.
  induction items as [|[k s] items IH]; intros Htup w Hin;
    cbn [Statistics.written] in Hin.
  - destruct Hin.
  - destruct (_call s obj w) as [[r|e] w1] eqn:Es; [|destruct Hin].
    destruct (Htup k s (or_introl eq_refl) w r w1 Es) as [rs ->].
    apply in_app_or in Hin. destruct Hin as [Hin|Hin].
    + apply in_names_split in Hin. destruct Hin as [j [_ ->]].
      exists k, j. split; [now left|reflexivity].
    + destruct (IH (fun k' s' H' => Htup k' s' (or_intror H')) w1 Hin)
        as [k' [j [Hk' ->]]].
      exists k', j. split; [now right|reflexivity].
Qed.

(** X7: in a split run of a set whose definitions all evaluate to tuples, no
    entry overwrites another: the result maps ["k-i"] to the element [i] of
    the value of every entry [k]. *)
Theorem do_split_all_tuples {W : Type} {R : Runtime W}
        (pre post : list (string * value)) (k : string) (s obj : value)
        (rs : list value) (res1 res : dict) (w w1 w2 w3 : W) :
  NoDup (map fst (pre ++ (k, s) :: post)) ->
  (forall k' s', In (k', s') (pre ++ (k, s) :: post) ->
     forall w r w', _call s' obj w = (Ok r, w') -> exists rs', r = VTuple rs') ->
  Statistics.do pre obj true w = (Ok res1, w1) ->
  _call s obj w1 = (Ok (VTuple rs), w2) ->
  Statistics.do (pre ++ (k, s) :: post) obj true w = (Ok res, w3) ->
  forall i ri, nth_error rs i = Some ri -> dict_get res (split_name k i) = Some ri.
Proof.
  intros Hnd Htup Hpre Hs Hrun i ri Hi.
  unfold Statistics.do in Hrun. apply do_loop_middle in Hrun.
  destruct Hrun as [res1' [w1' [r [w2' [Hpre' [Hs' Hpost]]]]]].
  unfold Statistics.do in Hpre. rewrite Hpre in Hpre'. injection Hpre' as <- <-.
  rewrite Hs in Hs'. injection Hs' as <- <-.
  rewrite (do_loop_other _ _ _ (split_name k i) _ _ _ _ Hpost).
  - simpl. apply (store_split_get k rs res1 0 i ri Hi).
  - intros Hin. apply written_all_tuples in Hin.
    + destruct Hin as [k' [j [Hk' E]]].
      apply split_name_inj_pair in E. destruct E as [<- _].
      rewrite map_app in Hnd. simpl in Hnd.
      apply NoDup_remove_2 in Hnd. apply Hnd. apply in_or_app. now right.
    + intros k' s' Hin'. apply (Htup k' s').
      apply in_or_app. right. now right.
Qed.

Lemma do_split_all_tuples_witness :
  dict_get [("a-0", VInt 1); ("a-1", VInt 2); ("a-0-0", VInt 3); ("a-0-1", VInt 4)]
           "a-0" = Some (VInt 1).
Proof.
  refine (@do_split_all_tuples nat Example.shipped
           [] [("a-0", VTuple [VInt 3; VInt 4])] "a" (VTuple [VInt 1; VInt 2])
           Example.T [VInt 1; VInt 2] []
           [("a-0", VInt 1); ("a-1", VInt 2); ("a-0-0", VInt 3); ("a-0-1", VInt 4)]
           0 0 0 0 (NoDup_cons _ _ (NoDup_cons _ _ (NoDup_nil _))) _
           eq_refl eq_refl eq_refl 0 (VInt 1) eq_refl).
  - simpl. intuition discriminate.
  - simpl. intuition.
  - intros k' s' Hin w r w'.
    destruct Hin as [E|[E|[]]]; injection E as <- <-;
      intros E; injection E as <- _; eexists; reflexivity.
Defined.
